(* ===================================================================== *)
(*  config/__init__.py : the deployment constants of the WBTC-USDC        *)
(*  Uniswap V3 sett vault, as a Python module body run over a namespace.  *)
(* ===================================================================== *)
(* The module is a straight-line sequence of top-level assignments.  A
   Python module body is executed statement by statement against the
   module's namespace (a dictionary from names to objects): a literal
   is pushed as it is, a name is looked up in the namespace at the moment
   the expression is evaluated and raises NameError when it is not there,
   a list display evaluates its items from left to right, and an
   assignment stores the value under the target name.  An exception stops
   the execution; the bindings made so far stay in the namespace. *)

From Stdlib Require Import ZArith Ascii String.
From stdpp Require Import gmap strings list fin_maps.

Local Open Scope string_scope.
Local Open Scope Z_scope.

(* --------------------------------------------------------------------- *)
(* Objects, exceptions and the namespace                                  *)
(* --------------------------------------------------------------------- *)

(** The objects the module creates: str, int and list. *)
#[warnings="-register-all"]
Inductive value : Type :=
  | VStr (s : string)
  | VInt (z : Z)
  | VList (l : list value).

(** The one exception a sequence of assignments of literals, names and
    list displays can raise. *)
Inductive exn : Type :=
  | NameError (x : string).

(** What name lookup sees: the module's globals (over the builtins, which
    the module never assigns and which hold none of the names below). *)
Abbreviation namespace := (gmap string value).

(** A computation over the namespace that either raises or returns; the
    namespace it leaves is returned in both cases. *)
Definition M (A : Type) : Type := namespace -> (exn + A) * namespace.

Definition ret {A : Type} (a : A) : M A :=
  fun g => (inr a, g).

Definition raise {A : Type} (e : exn) : M A :=
  fun g => (inl e, g).

Definition bind {A B : Type} (m : M A) (k : A -> M B) : M B :=
  fun g =>
    match m g with
    | (inl e, g') => (inl e, g')
    | (inr a, g') => k a g'
    end.

Declare Scope py_scope.
Delimit Scope py_scope with py.
Notation "x <- m ;; k" := (bind m (fun x => k))
  (at level 100, m at next level, right associativity) : py_scope.
Local Open Scope py_scope.

(* --------------------------------------------------------------------- *)
(* Expressions and statements                                             *)
(* --------------------------------------------------------------------- *)

(** A literal: "..." or 1000. *)
Definition load_const (v : value) : M value := ret v.

(** A name in expression position. *)
Definition load_name (x : string) : M value :=
  fun g =>
    match g !! x with
    | Some v => ret v g
    | None => raise (NameError x) g
    end.

(** The items of a display, evaluated left to right; the first exception
    ends the evaluation. *)
Fixpoint eval_items (items : list (M value)) : M (list value) :=
  match items with
  | [] => ret []
  | e :: rest =>
      v <- e ;;
      vs <- eval_items rest ;;
      ret (v :: vs)
  end.

(** A list display [e1, ..., en]. *)
Definition build_list (items : list (M value)) : M value :=
  vs <- eval_items items ;;
  ret (VList vs).

(** The target of an assignment. *)
Definition store_name (x : string) (v : value) : M unit :=
  fun g => (inr tt, <[x := v]> g).

(** An assignment statement  target = rhs. *)
Record stmt : Type := Assign { target : string; rhs : M value }.

Notation "x ::= e" := (Assign x e) (at level 60, no associativity) : py_scope.

Definition exec_stmt (s : stmt) : M unit :=
  v <- rhs s ;;
  store_name (target s) v.

Fixpoint exec_body (body : list stmt) : M unit :=
  match body with
  | [] => ret tt
  | s :: rest =>
      _ <- exec_stmt s ;;
      exec_body rest
  end.

Definition targets (body : list stmt) : list string := map target body.

(** An expression that leaves the namespace as it found it. *)
Definition pure_expr (e : M value) : Prop :=
  forall g, (e g).2 = g.

(* --------------------------------------------------------------------- *)
(* The module                                                             *)
(* --------------------------------------------------------------------- *)

Module config.

Definition BADGER_DEV_MULTISIG : stmt :=
  "BADGER_DEV_MULTISIG" ::=
    load_const (VStr "0xb65cef03b9b89f99517643226d76e286ee999e77").

(* USDC *)
Definition WANT : stmt :=
  "WANT" ::= load_const (VStr "0xA0b86991c6218b36c1d19D4a2e9Eb0cE3606eB48").

(* Uniswap V3: WBTC-USDC LP Token *)
Definition LP_COMPONENT : stmt :=
  "LP_COMPONENT" ::=
    load_const (VStr "0x99ac8cA7087fA4A2A1FB6357269965A2014ABc35").

(* The source has the line  # REWARD_TOKEN = ...  here: a comment, so no
   statement. *)

Definition PROTECTED_TOKENS_items : list (M value) :=
  [load_name "WANT"; load_name "LP_COMPONENT"; load_name "REWARD_TOKEN"].

Definition PROTECTED_TOKENS : stmt :=
  "PROTECTED_TOKENS" ::= build_list PROTECTED_TOKENS_items.

(* Fees in basis points *)
Definition DEFAULT_GOV_PERFORMANCE_FEE : stmt :=
  "DEFAULT_GOV_PERFORMANCE_FEE" ::= load_const (VInt 1000).

Definition DEFAULT_PERFORMANCE_FEE : stmt :=
  "DEFAULT_PERFORMANCE_FEE" ::= load_const (VInt 1000).

Definition DEFAULT_WITHDRAWAL_FEE : stmt :=
  "DEFAULT_WITHDRAWAL_FEE" ::= load_const (VInt 10).

Definition FEES_items : list (M value) :=
  [load_name "DEFAULT_GOV_PERFORMANCE_FEE";
   load_name "DEFAULT_PERFORMANCE_FEE";
   load_name "DEFAULT_WITHDRAWAL_FEE"].

Definition FEES : stmt :=
  "FEES" ::= build_list FEES_items.

(* Multichain BadgerRegistry *)
Definition REGISTRY : stmt :=
  "REGISTRY" ::= load_const (VStr "0xFda7eB6f8b7a9e9fCFd348042ae675d1d652454f").

(** The statements of the module, in source order. *)
Definition body : list stmt :=
  [BADGER_DEV_MULTISIG; WANT; LP_COMPONENT; PROTECTED_TOKENS;
   DEFAULT_GOV_PERFORMANCE_FEE; DEFAULT_PERFORMANCE_FEE;
   DEFAULT_WITHDRAWAL_FEE; FEES; REGISTRY].

(** Importing the module runs its body. *)
Definition load : M unit := exec_body body.

(** The statements before the PROTECTED_TOKENS assignment, and those
    after it: what runs once that assignment has been passed. *)
Definition before_PROTECTED_TOKENS : list stmt := take 3 body.
Definition after_PROTECTED_TOKENS : list stmt := drop 4 body.

(** The namespace the first three assignments leave. *)
Definition with_addresses (g : namespace) : namespace :=
  <["LP_COMPONENT" := VStr "0x99ac8cA7087fA4A2A1FB6357269965A2014ABc35"]>
    (<["WANT" := VStr "0xA0b86991c6218b36c1d19D4a2e9Eb0cE3606eB48"]>
      (<["BADGER_DEV_MULTISIG" :=
           VStr "0xb65cef03b9b89f99517643226d76e286ee999e77"]> g)).

(** The namespace the assignments after PROTECTED_TOKENS leave. *)
Definition with_fees_and_registry (g : namespace) : namespace :=
  <["REGISTRY" := VStr "0xFda7eB6f8b7a9e9fCFd348042ae675d1d652454f"]>
    (<["FEES" := VList [VInt 1000; VInt 1000; VInt 10]]>
      (<["DEFAULT_WITHDRAWAL_FEE" := VInt 10]>
        (<["DEFAULT_PERFORMANCE_FEE" := VInt 1000]>
          (<["DEFAULT_GOV_PERFORMANCE_FEE" := VInt 1000]> g)))).

End config.

(* --------------------------------------------------------------------- *)
(* The properties of the declared values that are checked below           *)
(* --------------------------------------------------------------------- *)

Definition is_hex_digit (c : ascii) : bool :=
  let n := nat_of_ascii c in
  ((48 <=? n) && (n <=? 57) || (65 <=? n) && (n <=? 70)
   || (97 <=? n) && (n <=? 102))%nat.

(** "0x" followed by exactly 40 hexadecimal digits: a 20-byte address. *)
Definition is_address (s : string) : bool :=
  match s with
  | String "0" (String "x" digits) =>
      (String.length digits =? 40)%nat
      && forallb is_hex_digit (list_ascii_of_string digits)
  | _ => false
  end.

(** A fee in basis points. *)
Definition is_bps (v : value) : bool :=
  match v with
  | VInt z => (0 <=? z) && (z <=? 10000)
  | _ => false
  end.

(** The sum of a list of ints; None when the object is something else. *)
Fixpoint sum_ints (vs : list value) : option Z :=
  match vs with
  | [] => Some 0
  | VInt z :: rest => option_map (Z.add z) (sum_ints rest)
  | _ :: _ => None
  end.

Definition fee_total (v : value) : option Z :=
  match v with
  | VList vs => sum_ints vs
  | _ => None
  end.


(** The names a load leaves bound besides those bound before it: the
    targets of all statements when REWARD_TOKEN was bound, those of the
    statements before PROTECTED_TOKENS otherwise. *)
Definition bound_by_load (g : namespace) : list string :=
  match g !! "REWARD_TOKEN" with
  | Some _ => targets config.body
  | None => targets config.before_PROTECTED_TOKENS
  end.

(* ===================================================================== *)
(* Execution lemmas                                                       *)
(* ===================================================================== *)

Lemma load_name_bound (x : string) (v : value) (g : namespace) :
  g !! x = Some v -> load_name x g = (inr v, g).
Proof. intros H. unfold load_name. by rewrite H. Qed.

Lemma load_name_unbound (x : string) (g : namespace) :
  g !! x = None -> load_name x g = (inl (NameError x), g).
Proof. intros H. unfold load_name. by rewrite H. Qed.

Lemma exec_body_app (b1 b2 : list stmt) (g : namespace) :
  exec_body (b1 ++ b2) g =
    match exec_body b1 g with
    | (inl e, g') => (inl e, g')
    | (inr _, g') => exec_body b2 g'
    end.
Proof.
  revert g. induction b1 as [|s b1 IH]; intros g; simpl; [done|].
  unfold bind. destruct (exec_stmt s g) as [[e|[]] g1]; [done|].
  apply IH.
Qed.

Lemma exec_body_cons_ok (s : stmt) (rest : list stmt) (g g1 : namespace)
    (v : value) :
  rhs s g = (inr v, g1) ->
  exec_body (s :: rest) g = exec_body rest (<[target s := v]> g1).
Proof. intros H. simpl. unfold bind, exec_stmt, bind. by rewrite H. Qed.

Lemma exec_body_cons_raise (s : stmt) (rest : list stmt) (g g1 : namespace)
    (e : exn) :
  rhs s g = (inl e, g1) ->
  exec_body (s :: rest) g = (inl e, g1).
Proof. intros H. simpl. unfold bind, exec_stmt, bind. by rewrite H. Qed.

(** A display of three names that are all bound is the list of their
    values, in the order of the display. *)
Lemma build_list_three_names (x y z : string) (a b c : value) (g : namespace) :
  g !! x = Some a -> g !! y = Some b -> g !! z = Some c ->
  build_list [load_name x; load_name y; load_name z] g
    = (inr (VList [a; b; c]), g).
Proof.
  intros Hx Hy Hz. unfold build_list, eval_items, bind.
  by rewrite (load_name_bound _ _ _ Hx), (load_name_bound _ _ _ Hy),
    (load_name_bound _ _ _ Hz).
Qed.

(** When the third name is not bound, the display raises after its first
    two items have been evaluated. *)
Lemma build_list_third_unbound (x y z : string) (a b : value) (g : namespace) :
  g !! x = Some a -> g !! y = Some b -> g !! z = None ->
  build_list [load_name x; load_name y; load_name z] g
    = (inl (NameError z), g).
Proof.
  intros Hx Hy Hz. unfold build_list, eval_items, bind.
  by rewrite (load_name_bound _ _ _ Hx), (load_name_bound _ _ _ Hy),
    (load_name_unbound _ _ Hz).
Qed.

(** The three address assignments always succeed. *)
Lemma before_PROTECTED_TOKENS_runs (g : namespace) :
  exec_body config.before_PROTECTED_TOKENS g = (inr tt, config.with_addresses g).
Proof. reflexivity. Qed.

(** The FEES display in a namespace the three fee assignments have run in. *)
Lemma FEES_rhs (g : namespace) (a b c : value) :
  g !! "DEFAULT_GOV_PERFORMANCE_FEE" = Some a ->
  g !! "DEFAULT_PERFORMANCE_FEE" = Some b ->
  g !! "DEFAULT_WITHDRAWAL_FEE" = Some c ->
  rhs config.FEES g = (inr (VList [a; b; c]), g).
Proof. apply build_list_three_names. Qed.

(** The assignments after PROTECTED_TOKENS always succeed. *)
Lemma after_PROTECTED_TOKENS_runs (g : namespace) :
  exec_body config.after_PROTECTED_TOKENS g =
    (inr tt, config.with_fees_and_registry g).
Proof.
  unfold config.after_PROTECTED_TOKENS, config.body, drop.
  do 3 (erewrite exec_body_cons_ok; [|reflexivity]).
  erewrite exec_body_cons_ok;
    [|apply FEES_rhs; by simplify_map_eq].
  reflexivity.
Qed.

(** The PROTECTED_TOKENS display after the address assignments. *)
Lemma PROTECTED_TOKENS_rhs_unbound (g : namespace) :
  g !! "REWARD_TOKEN" = None ->
  rhs config.PROTECTED_TOKENS (config.with_addresses g)
    = (inl (NameError "REWARD_TOKEN"), config.with_addresses g).
Proof.
  intros H. apply build_list_third_unbound with
    (a := VStr "0xA0b86991c6218b36c1d19D4a2e9Eb0cE3606eB48")
    (b := VStr "0x99ac8cA7087fA4A2A1FB6357269965A2014ABc35");
    unfold config.with_addresses; by simplify_map_eq.
Qed.

Lemma PROTECTED_TOKENS_rhs_bound (g : namespace) (r : value) :
  g !! "REWARD_TOKEN" = Some r ->
  rhs config.PROTECTED_TOKENS (config.with_addresses g)
    = (inr (VList [VStr "0xA0b86991c6218b36c1d19D4a2e9Eb0cE3606eB48";
                   VStr "0x99ac8cA7087fA4A2A1FB6357269965A2014ABc35"; r]),
       config.with_addresses g).
Proof.
  intros H. apply build_list_three_names;
    unfold config.with_addresses; by simplify_map_eq.
Qed.

Lemma body_split :
  config.body =
    (config.before_PROTECTED_TOKENS
       ++ config.PROTECTED_TOKENS :: config.after_PROTECTED_TOKENS)%list.
Proof. reflexivity. Qed.

(** Loading in a namespace without REWARD_TOKEN. *)
Lemma load_raises (g : namespace) :
  g !! "REWARD_TOKEN" = None ->
  config.load g = (inl (NameError "REWARD_TOKEN"), config.with_addresses g).
Proof.
  intros H. unfold config.load. rewrite body_split, exec_body_app.
  rewrite before_PROTECTED_TOKENS_runs.
  by apply exec_body_cons_raise, PROTECTED_TOKENS_rhs_unbound.
Qed.

(** Loading in a namespace that binds REWARD_TOKEN. *)
Lemma load_completes (g : namespace) (r : value) :
  g !! "REWARD_TOKEN" = Some r ->
  config.load g =
    (inr tt,
     config.with_fees_and_registry
       (<["PROTECTED_TOKENS" :=
            VList [VStr "0xA0b86991c6218b36c1d19D4a2e9Eb0cE3606eB48";
                   VStr "0x99ac8cA7087fA4A2A1FB6357269965A2014ABc35"; r]]>
          (config.with_addresses g))).
Proof.
  intros H. unfold config.load. rewrite body_split, exec_body_app.
  rewrite before_PROTECTED_TOKENS_runs.
  erewrite exec_body_cons_ok; [|by apply PROTECTED_TOKENS_rhs_bound].
  apply after_PROTECTED_TOKENS_runs.
Qed.

(* ===================================================================== *)
(* Purity, frame and stability of straight-line assignments               *)
(* ===================================================================== *)

Section Straight_line.

Lemma load_const_pure (v : value) : pure_expr (load_const v).
Proof. intros g. reflexivity. Qed.

Lemma load_name_pure (x : string) : pure_expr (load_name x).
Proof. intros g. unfold load_name. by destruct (g !! x). Qed.

Lemma eval_items_pure (items : list (M value)) (g : namespace) :
  Forall pure_expr items -> (eval_items items g).2 = g.
Proof.
  intros Hp. revert g. induction Hp as [|e items He _ IH]; intros g; [done|].
  simpl. unfold bind. specialize (He g).
  destruct (e g) as [[x|v] g1]; simpl in He; subst g1; [done|].
  specialize (IH g). by destruct (eval_items items g) as [[x|vs] g2].
Qed.

Lemma build_list_pure (items : list (M value)) :
  Forall pure_expr items -> pure_expr (build_list items).
Proof.
  intros Hp g. unfold build_list, bind.
  pose proof (eval_items_pure items g Hp) as H.
  by destruct (eval_items items g) as [[x|vs] g1].
Qed.

(** A display always yields a list object, with one element per item. *)
Lemma eval_items_length (items : list (M value)) (g g' : namespace)
    (vs : list value) :
  eval_items items g = (inr vs, g') -> length vs = length items.
Proof.
  revert g vs. induction items as [|e items IH]; intros g vs; simpl.
  - by intros [= <- _].
  - unfold bind. destruct (e g) as [[x|v] g1]; [done|].
    destruct (eval_items items g1) as [[x|ws] g2] eqn:E; [done|].
    intros [= <- <-]. simpl. f_equal. by eapply IH.
Qed.

Lemma build_list_result (items : list (M value)) (g : namespace) (v : value) :
  (build_list items g).1 = inr v ->
  exists vs, v = VList vs /\ length vs = length items.
Proof.
  unfold build_list, bind.
  destruct (eval_items items g) as [[x|vs] g1] eqn:E; [done|].
  intros [= <-]. exists vs. split; [done|]. by eapply eval_items_length.
Qed.

(** A statement changes at most the binding of its own target. *)
Lemma exec_stmt_frame (s : stmt) (g : namespace) (x : string) :
  pure_expr (rhs s) -> x <> target s -> (exec_stmt s g).2 !! x = g !! x.
Proof.
  intros Hp Hx. unfold exec_stmt, bind, store_name. specialize (Hp g).
  destruct (rhs s g) as [[e|v] g1]; simpl in *; subst g1; [done|].
  by rewrite lookup_insert_ne.
Qed.

(** Executing a body leaves every name that is not a target alone. *)
Lemma exec_body_frame (body : list stmt) (g : namespace) (x : string) :
  Forall (fun s => pure_expr (rhs s)) body ->
  x ∉ targets body -> (exec_body body g).2 !! x = g !! x.
Proof.
  intros Hp. revert g.
  induction Hp as [|s b Hs _ IH]; intros g Hx; [done|].
  simpl in Hx. apply not_elem_of_cons in Hx as [Hne Hx].
  simpl. unfold bind.
  pose proof (exec_stmt_frame s g x Hs Hne) as Hf.
  destruct (exec_stmt s g) as [[e|[]] g1]; simpl in Hf; [done|].
  by rewrite IH.
Qed.

End Straight_line.

(** Once one of the first k statements has assigned a name, no later
    statement of a body with distinct targets changes its binding. *)
Lemma exec_body_stable (body : list stmt) (g : namespace) (k k' : nat)
    (x : string) :
  Forall (fun s => pure_expr (rhs s)) body ->
  NoDup (targets body) ->
  (k <= k')%nat ->
  x ∈ targets (take k body) ->
  (exec_body (take k' body) g).2 !! x = (exec_body (take k body) g).2 !! x.
Proof.
  intros Hp Hnd Hk Hx.
  assert (Hsplit : take k' body = (take k body ++ drop k (take k' body))%list).
  { rewrite <- (take_drop k (take k' body)) at 1.
    by rewrite take_take, Nat.min_l. }
  rewrite Hsplit, exec_body_app.
  destruct (exec_body (take k body) g) as [[e|[]] g1]; [done|]. simpl.
  apply exec_body_frame.
  - apply Forall_drop, Forall_take, Hp.
  - unfold targets in *. rewrite <- (take_drop k body) in Hnd.
    rewrite map_app in Hnd. apply NoDup_app in Hnd as (_ & Hdisj & _).
    intros Hin. apply (Hdisj x Hx).
    rewrite skipn_firstn_comm in Hin.
    rewrite <- (take_drop (k' - k) (drop k body)), map_app.
    apply elem_of_app. by left.
Qed.

(** Splits a Forall over a list that is written out into one goal per
    element. *)
Ltac Forall_list :=
  repeat (apply Forall_cons_2; [|]); [.. | apply Forall_nil_2].

Lemma body_pure : Forall (fun s => pure_expr (rhs s)) config.body.
Proof.
  unfold config.body.
  Forall_list; try apply load_const_pure;
    apply build_list_pure; Forall_list; apply load_name_pure.
Qed.

Lemma body_targets :
  targets config.body =
    ["BADGER_DEV_MULTISIG"; "WANT"; "LP_COMPONENT"; "PROTECTED_TOKENS";
     "DEFAULT_GOV_PERFORMANCE_FEE"; "DEFAULT_PERFORMANCE_FEE";
     "DEFAULT_WITHDRAWAL_FEE"; "FEES"; "REGISTRY"].
Proof. reflexivity. Qed.

Lemma body_targets_NoDup : NoDup (targets config.body).
Proof. rewrite body_targets. compute_done. Qed.

(* ===================================================================== *)
(* Loading the module                                                     *)
(* ===================================================================== *)

(** C1. Loading the module in a namespace that does not bind REWARD_TOKEN
    (no statement of the module assigns it) fails while the list assigned
    to PROTECTED_TOKENS is built: the three address assignments succeed,
    the PROTECTED_TOKENS assignment raises NameError for REWARD_TOKEN, the
    load ends with that exception, and PROTECTED_TOKENS receives no value
    (its binding is the one the namespace had before the load). *)
Theorem load_raises_NameError (g : namespace) :
  g !! "REWARD_TOKEN" = None ->
  ("REWARD_TOKEN" ∉ targets config.body)
  /\ exec_body config.before_PROTECTED_TOKENS g
       = (inr tt, config.with_addresses g)
  /\ exec_stmt config.PROTECTED_TOKENS (config.with_addresses g)
       = (inl (NameError "REWARD_TOKEN"), config.with_addresses g)
  /\ config.load g
       = (inl (NameError "REWARD_TOKEN"), config.with_addresses g)
  /\ (config.load g).2 !! "PROTECTED_TOKENS" = g !! "PROTECTED_TOKENS".
Proof.
  intros H. split_and!.
  - rewrite body_targets. compute_done.
  - apply before_PROTECTED_TOKENS_runs.
  - unfold exec_stmt, bind. by rewrite PROTECTED_TOKENS_rhs_unbound.
  - by apply load_raises.
  - rewrite load_raises by done. unfold config.with_addresses.
    by simplify_map_eq.
Qed.

(** The load of a fresh, empty namespace. *)
Lemma load_raises_NameError_fresh :
  config.load ∅
    = (inl (NameError "REWARD_TOKEN"), config.with_addresses ∅)
  /\ (config.load ∅).2 !! "PROTECTED_TOKENS" = None.
Proof.
  destruct (load_raises_NameError ∅ (lookup_empty _)) as (_ & _ & _ & H & Hp).
  split; [exact H | exact Hp].
Defined.

(** In every load that completes, the names assigned after
    PROTECTED_TOKENS have the declared values. *)
Lemma load_completed_values (g g' : namespace) :
  config.load g = (inr tt, g') ->
  g' !! "DEFAULT_GOV_PERFORMANCE_FEE" = Some (VInt 1000)
  /\ g' !! "DEFAULT_PERFORMANCE_FEE" = Some (VInt 1000)
  /\ g' !! "DEFAULT_WITHDRAWAL_FEE" = Some (VInt 10)
  /\ g' !! "FEES" = Some (VList [VInt 1000; VInt 1000; VInt 10])
  /\ g' !! "REGISTRY"
       = Some (VStr "0xFda7eB6f8b7a9e9fCFd348042ae675d1d652454f").
Proof.
  destruct (g !! "REWARD_TOKEN") as [r|] eqn:E.
  - rewrite (load_completes g r E). intros [= <-].
    unfold config.with_fees_and_registry. split_and!; by simplify_map_eq.
  - by rewrite (load_raises g E).
Qed.

(* ===================================================================== *)
(* The fees                                                               *)
(* ===================================================================== *)

(** C2. FEES is the triple (governance performance fee, strategist
    performance fee, withdrawal fee) in that order: whatever the three fee
    names are bound to, the FEES display is the list of their values in
    that order; and the fee assignments of the module, run from any
    namespace, bind FEES to [1000, 1000, 10], every element at most
    10000. *)
Theorem FEES_ordered_triple :
  (forall (g : namespace) (gov strat wd : value),
      g !! "DEFAULT_GOV_PERFORMANCE_FEE" = Some gov ->
      g !! "DEFAULT_PERFORMANCE_FEE" = Some strat ->
      g !! "DEFAULT_WITHDRAWAL_FEE" = Some wd ->
      exec_stmt config.FEES g
        = (inr tt, <["FEES" := VList [gov; strat; wd]]> g))
  /\ (forall g : namespace,
        exists (g' : namespace) (gov strat wd : Z),
          exec_body config.after_PROTECTED_TOKENS g = (inr tt, g')
          /\ g' !! "DEFAULT_GOV_PERFORMANCE_FEE" = Some (VInt gov)
          /\ g' !! "DEFAULT_PERFORMANCE_FEE" = Some (VInt strat)
          /\ g' !! "DEFAULT_WITHDRAWAL_FEE" = Some (VInt wd)
          /\ g' !! "FEES" = Some (VList [VInt gov; VInt strat; VInt wd])
          /\ [gov; strat; wd] = [1000; 1000; 10]
          /\ Forall (fun z => z <= 10000) [gov; strat; wd]).
Proof.
  split.
  - intros g gov strat wd Hg Hs Hw. unfold exec_stmt, bind.
    by rewrite (FEES_rhs g gov strat wd Hg Hs Hw).
  - intros g. exists (config.with_fees_and_registry g), 1000, 1000, 10.
    split; [apply after_PROTECTED_TOKENS_runs|].
    unfold config.with_fees_and_registry.
    split_and!; try by simplify_map_eq.
    repeat constructor; lia.
Qed.

(** The FEES assignment in a namespace with three other fee values. *)
Lemma FEES_ordered_triple_example :
  exec_stmt config.FEES
    (<["DEFAULT_WITHDRAWAL_FEE" := VInt 3]>
      (<["DEFAULT_PERFORMANCE_FEE" := VInt 2]>
        {["DEFAULT_GOV_PERFORMANCE_FEE" := VInt 1]}))
  = (inr tt,
     <["FEES" := VList [VInt 1; VInt 2; VInt 3]]>
       (<["DEFAULT_WITHDRAWAL_FEE" := VInt 3]>
         (<["DEFAULT_PERFORMANCE_FEE" := VInt 2]>
           {["DEFAULT_GOV_PERFORMANCE_FEE" := VInt 1]}))).
Proof.
  apply (proj1 FEES_ordered_triple); reflexivity.
Defined.

(** C3. Every declared fee value is an integer in [0, 10000]: each of the
    three fee assignments evaluates, in any namespace, to an int in that
    interval, no other statement of the module yields an int outside of
    it, and the names hold such ints once the fee assignments have run. *)
Theorem declared_fees_in_range :
  Forall
    (fun s => forall g : namespace,
       exists z, rhs s g = (inr (VInt z), g) /\ 0 <= z <= 10000)
    [config.DEFAULT_GOV_PERFORMANCE_FEE; config.DEFAULT_PERFORMANCE_FEE;
     config.DEFAULT_WITHDRAWAL_FEE]
  /\ Forall
       (fun s => forall (g : namespace) (z : Z),
          (rhs s g).1 = inr (VInt z) -> 0 <= z <= 10000)
       config.body
  /\ forall g : namespace,
       Forall
         (fun x => exists v,
            (exec_body config.after_PROTECTED_TOKENS g).2 !! x = Some v
            /\ is_bps v = true)
         ["DEFAULT_GOV_PERFORMANCE_FEE"; "DEFAULT_PERFORMANCE_FEE";
          "DEFAULT_WITHDRAWAL_FEE"].
Proof.
  split_and!.
  - Forall_list; intros g; eexists; (split; [reflexivity|lia]).
  - unfold config.body. Forall_list; intros g z; simpl;
      try discriminate; try (intros [= <-]; lia);
      intros H; apply build_list_result in H as (vs & Hv & _); discriminate.
  - intros g. rewrite after_PROTECTED_TOKENS_runs.
    unfold config.with_fees_and_registry.
    Forall_list; eexists; (split; [by simplify_map_eq|reflexivity]).
Qed.

(** C10. The three declared fees add up to 1000 + 1000 + 10 = 2010 basis
    points, strictly below 10000: that is the sum of the list bound to FEES
    by the fee assignments, run from any namespace. *)
Theorem fee_total_below_10000 (g : namespace) :
  exists (fees : value) (total : Z),
    (exec_body config.after_PROTECTED_TOKENS g).2 !! "FEES" = Some fees
    /\ fee_total fees = Some total
    /\ total = 1000 + 1000 + 10
    /\ total = 2010
    /\ total < 10000.
Proof.
  rewrite after_PROTECTED_TOKENS_runs.
  exists (VList [VInt 1000; VInt 1000; VInt 10]), 2010.
  unfold config.with_fees_and_registry.
  split_and!; [by simplify_map_eq|reflexivity|lia|reflexivity|lia].
Qed.

(* ===================================================================== *)
(* The protected tokens                                                   *)
(* ===================================================================== *)

(** C9. WANT and LP_COMPONENT are distinct addresses: whatever namespace
    the load starts from, and whether or not it completes, it leaves the
    two names bound to different values, and these are the values of the
    first two items of the PROTECTED_TOKENS display. *)
Theorem WANT_LP_COMPONENT_distinct (g : namespace) :
  exists w l : value,
    (config.load g).2 !! "WANT" = Some w
    /\ (config.load g).2 !! "LP_COMPONENT" = Some l
    /\ w <> l
    /\ take 2 (map (fun e => (e (config.with_addresses g)).1)
                 config.PROTECTED_TOKENS_items)
       = [inr w; inr l].
Proof.
  exists (VStr "0xA0b86991c6218b36c1d19D4a2e9Eb0cE3606eB48"),
         (VStr "0x99ac8cA7087fA4A2A1FB6357269965A2014ABc35").
  assert (Hw : config.with_addresses g !! "WANT"
               = Some (VStr "0xA0b86991c6218b36c1d19D4a2e9Eb0cE3606eB48"))
    by (unfold config.with_addresses; by simplify_map_eq).
  assert (Hl : config.with_addresses g !! "LP_COMPONENT"
               = Some (VStr "0x99ac8cA7087fA4A2A1FB6357269965A2014ABc35"))
    by (unfold config.with_addresses; by simplify_map_eq).
  split_and!.
  - destruct (g !! "REWARD_TOKEN") as [r|] eqn:E.
    + rewrite (load_completes g r E). simpl.
      unfold config.with_fees_and_registry. by simplify_map_eq.
    + by rewrite (load_raises g E).
  - destruct (g !! "REWARD_TOKEN") as [r|] eqn:E.
    + rewrite (load_completes g r E). simpl.
      unfold config.with_fees_and_registry. by simplify_map_eq.
    + by rewrite (load_raises g E).
  - discriminate.
  - simpl. by rewrite (load_name_bound _ _ _ Hw), (load_name_bound _ _ _ Hl).
Qed.

(** C4. In a fresh namespace the items of the PROTECTED_TOKENS display
    evaluate to the WANT address, the LP_COMPONENT address and a NameError:
    the display raises, and the load leaves PROTECTED_TOKENS without a
    value, so there is no list whose entries could be compared. *)
Theorem PROTECTED_TOKENS_items_fresh :
  map (fun e => (e (config.with_addresses ∅)).1) config.PROTECTED_TOKENS_items
    = [inr (VStr "0xA0b86991c6218b36c1d19D4a2e9Eb0cE3606eB48");
       inr (VStr "0x99ac8cA7087fA4A2A1FB6357269965A2014ABc35");
       inl (NameError "REWARD_TOKEN")]
  /\ (rhs config.PROTECTED_TOKENS (config.with_addresses ∅)).1
       = inl (NameError "REWARD_TOKEN")
  /\ (config.load ∅).2 !! "PROTECTED_TOKENS" = None.
Proof.
  split_and!.
  - reflexivity.
  - by rewrite PROTECTED_TOKENS_rhs_unbound.
  - by rewrite load_raises.
Qed.

(** C5. The PROTECTED_TOKENS display has three items, not two: whenever it
    evaluates, the list has length 3; and the load of a fresh namespace
    raises NameError and does not bind PROTECTED_TOKENS to the list of
    the WANT and LP_COMPONENT addresses. *)
Theorem PROTECTED_TOKENS_three_items :
  length config.PROTECTED_TOKENS_items = 3%nat
  /\ (forall (g : namespace) (v : value),
        (rhs config.PROTECTED_TOKENS g).1 = inr v ->
        exists vs, v = VList vs /\ length vs = 3%nat)
  /\ config.load ∅
       = (inl (NameError "REWARD_TOKEN"), config.with_addresses ∅)
  /\ (config.load ∅).2 !! "PROTECTED_TOKENS"
       <> Some (VList [VStr "0xA0b86991c6218b36c1d19D4a2e9Eb0cE3606eB48";
                       VStr "0x99ac8cA7087fA4A2A1FB6357269965A2014ABc35"]).
Proof.
  split_and!.
  - reflexivity.
  - intros g v H. by apply build_list_result in H.
  - by apply load_raises.
  - by rewrite load_raises.
Qed.

(* ===================================================================== *)
(* The addresses                                                          *)
(* ===================================================================== *)

Example is_address_short : is_address "0xb65cef03" = false.
Proof. reflexivity. Qed.

Example is_address_no_prefix :
  is_address "b65cef03b9b89f99517643226d76e286ee999e77ab" = false.
Proof. reflexivity. Qed.

Example is_address_not_hex :
  is_address "0xg65cef03b9b89f99517643226d76e286ee999e77" = false.
Proof. reflexivity. Qed.

(** C6. Each of BADGER_DEV_MULTISIG, WANT, LP_COMPONENT and REGISTRY is
    assigned a string made of the prefix 0x and exactly 40 hexadecimal
    digits, and no statement of the module yields a string of another
    shape. *)
Theorem addresses_well_formed :
  Forall
    (fun s => forall g : namespace,
       exists a, rhs s g = (inr (VStr a), g) /\ is_address a = true)
    [config.BADGER_DEV_MULTISIG; config.WANT; config.LP_COMPONENT;
     config.REGISTRY]
  /\ Forall
       (fun s => forall (g : namespace) (a : string),
          (rhs s g).1 = inr (VStr a) -> is_address a = true)
       config.body.
Proof.
  split.
  - Forall_list; intros g; eexists; (split; reflexivity).
  - unfold config.body. Forall_list; intros g a; simpl;
      try discriminate; try (by intros [= <-]);
      intros H; apply build_list_result in H as (vs & Hv & _); discriminate.
Qed.

(* ===================================================================== *)
(* Determinism, frame and single assignment                               *)
(* ===================================================================== *)

(** The outcome of a load depends on the namespace it starts from only
    through REWARD_TOKEN. *)
Lemma load_outcome (g : namespace) :
  (config.load g).1 =
    match g !! "REWARD_TOKEN" with
    | Some _ => inr tt
    | None => inl (NameError "REWARD_TOKEN")
    end.
Proof.
  destruct (g !! "REWARD_TOKEN") as [r|] eqn:E.
  - by rewrite (load_completes g r E).
  - by rewrite (load_raises g E).
Qed.

(** Where two namespaces that agree on REWARD_TOKEN agree on a name, the
    namespaces their loads leave agree on it as well. *)
Lemma load_agree (g1 g2 : namespace) (x : string) :
  g1 !! "REWARD_TOKEN" = g2 !! "REWARD_TOKEN" ->
  g1 !! x = g2 !! x ->
  (config.load g1).2 !! x = (config.load g2).2 !! x.
Proof.
  intros Hr Hx. destruct (g1 !! "REWARD_TOKEN") as [r|] eqn:E.
  - rewrite (load_completes g1 r E), (load_completes g2 r (eq_sym Hr)). simpl.
    unfold config.with_fees_and_registry, config.with_addresses.
    rewrite !lookup_insert. repeat case_decide; done.
  - rewrite (load_raises g1 E), (load_raises g2 (eq_sym Hr)). simpl.
    unfold config.with_addresses.
    rewrite !lookup_insert. repeat case_decide; done.
Qed.

(** C7. Loading is deterministic and does nothing but bind the module's
    names: two loads started from namespaces that agree on the names the
    module mentions (two fresh namespaces, say) end in the same way, leave
    every name the module assigns with the same binding in both, and leave
    every other name as it was. *)
Theorem load_deterministic (g1 g2 : namespace) :
  Forall (fun x => g1 !! x = g2 !! x)
    ("REWARD_TOKEN" :: targets config.body) ->
  (config.load g1).1 = (config.load g2).1
  /\ Forall (fun x => (config.load g1).2 !! x = (config.load g2).2 !! x)
       (targets config.body)
  /\ (forall x : string,
        x ∉ targets config.body ->
        (config.load g1).2 !! x = g1 !! x
        /\ (config.load g2).2 !! x = g2 !! x).
Proof.
  intros H. apply Forall_cons in H as [Hr Ht]. split_and!.
  - by rewrite !load_outcome, Hr.
  - eapply Forall_impl; [exact Ht|]. intros x Hx. by apply load_agree.
  - intros x Hx. split; by apply exec_body_frame; [apply body_pure|].
Qed.

(** Two loads whose namespaces differ in the module's own __name__. *)
Lemma load_deterministic_example :
  (config.load {["__name__" := VStr "config"]}).1
    = (config.load {["__name__" := VStr "__main__"]}).1
  /\ Forall
       (fun x =>
          (config.load {["__name__" := VStr "config"]}).2 !! x
            = (config.load {["__name__" := VStr "__main__"]}).2 !! x)
       (targets config.body).
Proof.
  destruct (load_deterministic
              {["__name__" := VStr "config"]}
              {["__name__" := VStr "__main__"]}) as (H1 & H2 & _).
  - rewrite body_targets. Forall_list; reflexivity.
  - split; [exact H1 | exact H2].
Defined.

(** C8. The module's names are bound once and not changed afterwards: no
    two statements have the same target, no right-hand side modifies the
    namespace, and a name assigned by one of the first k statements has
    the same binding after any longer prefix of the module, the whole load
    included. *)
Theorem constants_assigned_once :
  NoDup (targets config.body)
  /\ Forall (fun s => pure_expr (rhs s)) config.body
  /\ (forall (g : namespace) (k k' : nat) (x : string),
        (k <= k')%nat ->
        x ∈ targets (take k config.body) ->
        (exec_body (take k' config.body) g).2 !! x
          = (exec_body (take k config.body) g).2 !! x)
  /\ (forall (g : namespace) (k : nat) (x : string),
        x ∈ targets (take k config.body) ->
        (config.load g).2 !! x = (exec_body (take k config.body) g).2 !! x).
Proof.
  split_and!.
  - apply body_targets_NoDup.
  - apply body_pure.
  - intros g k k' x Hk Hx.
    by apply exec_body_stable; [apply body_pure|apply body_targets_NoDup|..].
  - intros g k x Hx. unfold config.load.
    destruct (decide (k <= length config.body)%nat) as [Hk|Hk].
    + rewrite <- (take_ge config.body (length config.body)) at 1 by done.
      by apply exec_body_stable;
        [apply body_pure|apply body_targets_NoDup|..].
    + by rewrite (take_ge config.body k) by lia.
Qed.

(** WANT, assigned by the second statement, keeps its value to the end of
    a load that completes. *)
Lemma constants_assigned_once_example :
  (config.load {["REWARD_TOKEN" := VStr "0x00"]}).2 !! "WANT"
    = (exec_body (take 2 config.body) {["REWARD_TOKEN" := VStr "0x00"]}).2
        !! "WANT".
Proof.
  destruct constants_assigned_once as (_ & _ & _ & H).
  apply (H {["REWARD_TOKEN" := VStr "0x00"]} 2%nat "WANT").
  simpl. set_solver.
Defined.

(* ===================================================================== *)
(* Displays of names                                                      *)
(* ===================================================================== *)

(** A display of names, all of them bound: the list of their values. *)
Lemma build_list_names_bound (xs : list string) (vs : list value)
    (g : namespace) :
  Forall2 (fun x v => g !! x = Some v) xs vs ->
  build_list (load_name <$> xs) g = (inr (VList vs), g).
Proof.
  intros H. unfold build_list, bind.
  assert (E : eval_items (load_name <$> xs) g = (inr vs, g)).
  { induction H as [|x v xs vs Hx _ IH]; [done|].
    rewrite fmap_cons. simpl. unfold bind.
    by rewrite (load_name_bound x v g Hx), IH. }
  by rewrite E.
Qed.


(* ===================================================================== *)
(* More on loading: outcome, bindings, reloading                          *)
(* ===================================================================== *)

(** X1. REWARD_TOKEN is the only name the module needs from outside: a
    load completes exactly when the namespace it starts from binds
    REWARD_TOKEN, and the only exception a load can raise is the NameError
    for REWARD_TOKEN. *)
Theorem load_completes_iff (g : namespace) :
  ((config.load g).1 = inr tt <-> is_Some (g !! "REWARD_TOKEN"))
  /\ (forall e : exn,
        (config.load g).1 = inl e ->
        e = NameError "REWARD_TOKEN" /\ g !! "REWARD_TOKEN" = None).
Proof.
  destruct (g !! "REWARD_TOKEN") as [r|] eqn:E.
  - rewrite (load_completes g r E). simpl. split; [|done].
    split; [by eexists|done].
  - rewrite (load_raises g E). simpl. split.
    + split; [done|]. by intros [? ?].
    + by intros e [= <-].
Qed.

(** X2. A load that starts with REWARD_TOKEN bound completes and leaves
    the nine names of the module bound to the declared values, whatever
    they were bound to before; PROTECTED_TOKENS is then the list of the
    WANT address, the LP_COMPONENT address and the value of REWARD_TOKEN,
    and REWARD_TOKEN keeps its value. *)
Theorem load_completed_namespace (g : namespace) (r : value) :
  g !! "REWARD_TOKEN" = Some r ->
  (config.load g).1 = inr tt
  /\ (fun x => (config.load g).2 !! x) <$> targets config.body
     = [Some (VStr "0xb65cef03b9b89f99517643226d76e286ee999e77");
        Some (VStr "0xA0b86991c6218b36c1d19D4a2e9Eb0cE3606eB48");
        Some (VStr "0x99ac8cA7087fA4A2A1FB6357269965A2014ABc35");
        Some (VList [VStr "0xA0b86991c6218b36c1d19D4a2e9Eb0cE3606eB48";
                     VStr "0x99ac8cA7087fA4A2A1FB6357269965A2014ABc35"; r]);
        Some (VInt 1000); Some (VInt 1000); Some (VInt 10);
        Some (VList [VInt 1000; VInt 1000; VInt 10]);
        Some (VStr "0xFda7eB6f8b7a9e9fCFd348042ae675d1d652454f")]
  /\ (config.load g).2 !! "REWARD_TOKEN" = Some r.
Proof.
  intros E. rewrite (load_completes g r E). simpl.
  unfold config.with_fees_and_registry, config.with_addresses.
  split_and!; [done| |by simplify_map_eq].
  repeat (apply (f_equal2 cons); [by simplify_map_eq|]). done.
Qed.

(** A load over a namespace in which FEES was bound to something else. *)
Lemma load_completed_namespace_example :
  (config.load
     (<["FEES" := VInt 7]> {["REWARD_TOKEN" := VStr "0x00"]})).2 !! "FEES"
  = Some (VList [VInt 1000; VInt 1000; VInt 10]).
Proof.
  destruct (load_completed_namespace
              (<["FEES" := VInt 7]> {["REWARD_TOKEN" := VStr "0x00"]})
              (VStr "0x00")) as (_ & H & _); [reflexivity|].
  exact (f_equal (fun l => default None (l !! 7%nat)) H).
Defined.

(** X3. When REWARD_TOKEN is bound, the list the load binds to
    PROTECTED_TOKENS is free of duplicates exactly when the value of
    REWARD_TOKEN is neither the WANT address nor the LP_COMPONENT
    address. *)
Theorem PROTECTED_TOKENS_NoDup_iff (g : namespace) (r : value) :
  g !! "REWARD_TOKEN" = Some r ->
  exists l : list value,
    (config.load g).2 !! "PROTECTED_TOKENS" = Some (VList l)
    /\ (NoDup l <->
        r <> VStr "0xA0b86991c6218b36c1d19D4a2e9Eb0cE3606eB48"
        /\ r <> VStr "0x99ac8cA7087fA4A2A1FB6357269965A2014ABc35").
Proof.
  intros E. eexists. split.
  - rewrite (load_completes g r E). simpl.
    unfold config.with_fees_and_registry. by simplify_map_eq.
  - rewrite !NoDup_cons, !elem_of_cons, !elem_of_nil. split.
    + intros (Hw & Hl & _). split; intros ->; [apply Hw|apply Hl]; auto.
    + intros [Hw Hl]. split_and!.
      * intros [[=]|[E'|[]]]. by apply Hw.
      * intros [E'|[]]. by apply Hl.
      * intros [].
      * apply NoDup_nil_2.
Qed.

(** With REWARD_TOKEN bound to the WANT address the list has a
    duplicate. *)
Lemma PROTECTED_TOKENS_NoDup_iff_example :
  exists l : list value,
    (config.load
       {["REWARD_TOKEN" :=
           VStr "0xA0b86991c6218b36c1d19D4a2e9Eb0cE3606eB48"]}).2
      !! "PROTECTED_TOKENS" = Some (VList l)
    /\ (NoDup l <->
        VStr "0xA0b86991c6218b36c1d19D4a2e9Eb0cE3606eB48"
          <> VStr "0xA0b86991c6218b36c1d19D4a2e9Eb0cE3606eB48"
        /\ VStr "0xA0b86991c6218b36c1d19D4a2e9Eb0cE3606eB48"
          <> VStr "0x99ac8cA7087fA4A2A1FB6357269965A2014ABc35").
Proof.
  apply (PROTECTED_TOKENS_NoDup_iff
           {["REWARD_TOKEN" :=
               VStr "0xA0b86991c6218b36c1d19D4a2e9Eb0cE3606eB48"]}).
  reflexivity.
Defined.

(** Binding the module's names a second time changes nothing. *)
Lemma with_addresses_idemp (g : namespace) :
  config.with_addresses (config.with_addresses g) = config.with_addresses g.
Proof.
  apply map_eq. intros x. unfold config.with_addresses.
  rewrite !lookup_insert. by repeat case_decide.
Qed.

(** X4. Loading the module again in the namespace a load has left (what
    reloading a module does) ends in the same way and leaves the same
    namespace: after a failed load the same NameError, after a completed
    load the same bindings. *)
Theorem reload_idempotent (g : namespace) :
  config.load (config.load g).2 = config.load g.
Proof.
  destruct (g !! "REWARD_TOKEN") as [r|] eqn:E.
  - rewrite (load_completes g r E). simpl.
    erewrite load_completes.
    + f_equal. apply map_eq. intros x.
      unfold config.with_fees_and_registry, config.with_addresses.
      rewrite !lookup_insert. by repeat case_decide.
    + unfold config.with_fees_and_registry, config.with_addresses.
      by simplify_map_eq.
  - rewrite (load_raises g E). simpl.
    rewrite load_raises, with_addresses_idemp; [done|].
    unfold config.with_addresses. by simplify_map_eq.
Qed.

#[local] Set Warnings "-clear-no-such-hyp".

(** X5. The names bound after a load are those bound before it together
    with the targets of the statements that ran: all nine when REWARD_TOKEN
    was bound, and only BADGER_DEV_MULTISIG, WANT and LP_COMPONENT when it
    was not, so that a failed load binds none of PROTECTED_TOKENS, the
    fees, FEES and REGISTRY. *)
Theorem load_dom (g : namespace) :
  dom (config.load g).2 = list_to_set (bound_by_load g) ∪ dom g
  /\ (g !! "REWARD_TOKEN" = None ->
      Forall (fun x => (config.load g).2 !! x = g !! x)
        (targets (drop 3 config.body))).
Proof.
  unfold bound_by_load. destruct (g !! "REWARD_TOKEN") as [r|] eqn:E.
  - split; [|done]. rewrite (load_completes g r E). simpl.
    unfold config.with_fees_and_registry, config.with_addresses.
    rewrite !dom_insert_L. set_solver.
  - rewrite (load_raises g E). simpl. unfold config.with_addresses. split.
    + rewrite !dom_insert_L. set_solver.
    + intros _. Forall_list; by simplify_map_eq.
Qed.

(** The names a failed load of a namespace holding only __name__ leaves. *)
Lemma load_dom_example :
  dom (config.load {["__name__" := VStr "config"]}).2
    = list_to_set (bound_by_load {["__name__" := VStr "config"]})
      ∪ dom ({["__name__" := VStr "config"]} : namespace)
  /\ Forall
       (fun x =>
          (config.load {["__name__" := VStr "config"]}).2 !! x
            = ({["__name__" := VStr "config"]} : namespace) !! x)
       (targets (drop 3 config.body)).
Proof.
  destruct (load_dom {["__name__" := VStr "config"]}) as [H1 H2].
  split; [exact H1 | apply H2; reflexivity].
Defined.


